(** * Smart traffic monitor: the analysis function of [app.py]

    A shallow embedding of [analyze_traffic] and of the [/upload] handler
    that calls it, with the properties of the vehicle tally, of the density
    thresholds and of the handling of detector failures.

    Python's [int] is unbounded and is modelled by [Z]; a [dict] is a finite
    map ([gmap]); a [str] is a [string].  A subscript [d[k]] raises
    [KeyError] on a missing key, so subscripts live in the [result] monad
    below and their success is something to prove. *)

From stdpp Require Import gmap strings pretty list fin_maps.
From Stdlib Require Import ZArith Lia.
From Stdlib.Strings Require Import Ascii Byte.

Local Open Scope string_scope.
Local Open Scope Z_scope.

(** ** Values and exceptions *)

(** The Python values that occur as entries of the dictionaries of
    [app.py]: integers, strings and the [vehicle_counts] dictionary nested
    in the result. *)
Inductive value : Type :=
  | VInt (z : Z)
  | VStr (s : string)
  | VDict (d : gmap string Z).

(** Exceptions (instances of Python's [Exception]).  [KeyError] and
    [IndexError] are what subscripts raise; [Exception msg] stands for any
    exception raised by a collaborator (the detector, the file store), with
    [msg] its [str()]. *)
Inductive exn : Type :=
  | KeyError (key : value)
  | IndexError (msg : string)
  | Exception (msg : string).

Inductive result (A : Type) : Type :=
  | Ok (a : A)
  | Raise (e : exn).
Arguments Ok {A} a.
Arguments Raise {A} e.

#[export] Instance result_ret : MRet result := λ A a, Ok a.
#[export] Instance result_bind : MBind result := λ A B f m,
  match m with
  | Ok a => f a
  | Raise e => Raise e
  end.

(** Keys of a dictionary, seen as Python values (the argument of a
    [KeyError]). *)
Class PyKey (K : Type) := py_key : K → value.
#[export] Instance int_key : PyKey Z := VInt.
#[export] Instance str_key : PyKey string := VStr.

(** [d[k]] *)
Definition getitem `{Countable K} `{PyKey K} {V : Type}
    (d : gmap K V) (k : K) : result V :=
  match d !! k with
  | Some v => Ok v
  | None => Raise (KeyError (py_key k))
  end.

(** [k in d] *)
Definition contains `{Countable K} {V : Type} (k : K) (d : gmap K V) : bool :=
  bool_decide (is_Some (d !! k)).

(** A [for] loop whose body updates an accumulator and may raise. *)
Fixpoint for_each {A S : Type} (body : S → A → result S) (xs : list A) (s : S)
    : result S :=
  match xs with
  | [] => Ok s
  | x :: xs' => s' ← body s x; for_each body xs' s'
  end.

(** ** The detector's output *)

(** One detected object.  [cls] is the integer [int(box.cls[0])]; the
    confidence and the coordinates of a box are never read by [app.py]. *)
Record Box : Type := { cls : Z }.

(** One element of what the model returns (one per image). *)
Record Results : Type := { boxes : list Box }.

(** ** [analyze_traffic], the part after inference *)

Definition VEHICLE_CLASSES : gmap Z string :=
  {[ 2 := "car"; 3 := "motorcycle"; 5 := "bus"; 7 := "truck" ]}.

(** The body of the inner loop (lines 42-45). *)
Definition count_box (vehicle_counts : gmap string Z) (box : Box)
    : result (gmap string Z) :=
  let class_id := cls box in
  if contains class_id VEHICLE_CLASSES then
    vehicle_type ← getitem VEHICLE_CLASSES class_id;
    n ← getitem vehicle_counts vehicle_type;
    Ok (<[vehicle_type := n + 1]> vehicle_counts)
  else Ok vehicle_counts.

(** Lines 36-45: the counters and the two nested loops. *)
Definition tally (results : list Results) : result (gmap string Z) :=
  for_each (λ vehicle_counts result, for_each count_box (boxes result) vehicle_counts)
    results
    {[ "car" := 0; "motorcycle" := 0; "bus" := 0; "truck" := 0 ]}.

(** [sum(d.values())] *)
Definition sum_values (d : gmap string Z) : Z :=
  map_fold (λ _ v acc, acc + v) 0 d.

(** Lines 50-62: density, density_color, green_duration. *)
Definition classify_density (total_vehicles : Z) : string * string * Z :=
  if total_vehicles <=? 5 then ("Low", "#4CAF50", 30)
  else if total_vehicles <=? 15 then ("Medium", "#FF9800", 45)
  else ("High", "#F44336", 60).

(** Lines 36-70, given the model's output. *)
Definition analyze_results (results : list Results) : result (gmap string value) :=
  vehicle_counts ← tally results;
  let total_vehicles := sum_values vehicle_counts in
  let '(density, density_color, green_duration) := classify_density total_vehicles in
  Ok {[ "total_vehicles" := VInt total_vehicles;
        "vehicle_counts" := VDict vehicle_counts;
        "density" := VStr density;
        "density_color" := VStr density_color;
        "green_duration" := VInt green_duration ]}.

(** ** Strings and paths *)

(** [c in s] for a one-character [c]. *)
Fixpoint str_in (c : ascii) (s : string) : bool :=
  match s with
  | EmptyString => false
  | String a s' => bool_decide (a = c) || str_in c s'
  end.

(** [s.rsplit(c, 1)] for a one-character separator: the string is cut at
    the last [c]; without any [c] the result is the one-element list [[s]]. *)
Fixpoint rsplit1 (c : ascii) (s : string) : list string :=
  match s with
  | EmptyString => [EmptyString]
  | String a s' =>
      match rsplit1 c s' with
      | [t] => if bool_decide (a = c) then [EmptyString; t] else [String a t]
      | h :: rest => String a h :: rest
      | [] => []
      end
  end.

(** [l[i]] on a list. *)
Definition list_getitem {A : Type} (l : list A) (i : nat) : result A :=
  match l !! i with
  | Some x => Ok x
  | None => Raise (IndexError "list index out of range")
  end.

Definition endswith (suffix s : string) : bool :=
  let n := String.length s in
  let k := String.length suffix in
  bool_decide (k ≤ n)%nat && String.eqb (String.substring (n - k) k s) suffix.

(** [os.path.join(a, b)] of [posixpath]. *)
Definition os_path_join (a b : string) : string :=
  if String.prefix "/" b then b
  else if String.eqb a "" || endswith "/" a then a +:+ b
  else a +:+ "/" +:+ b.

(** ** The request handler and its collaborators *)

(** An uploaded file ([werkzeug]'s [FileStorage]). *)
Record FileStorage : Type := { filename : string; stream : list byte }.

(** The part of a request that [upload_image] reads. *)
Record Request : Type := { files : gmap string FileStorage }.

Definition UPLOAD_FOLDER : string := "uploads".

Definition allowed_extensions : gset string := {[ "png"; "jpg"; "jpeg" ]}.

Section App.

(** Whatever lies outside the process and can change the outcome of a
    call to a collaborator: the file system, the weights of the model. *)
Variable Env : Type.

(** [model(image_path, verbose=False)]: the outcome of one inference call,
    a list of [Results] or an exception. *)
Variable model : string → Env → result (list Results) * Env.

(** [file.save(filepath)] *)
Variable file_save : FileStorage → string → Env → result unit * Env.

(** Python's [repr] on values and [str.lower]. *)
Variable repr : value → string.
Variable lower : string → string.

(** [str(e)] *)
Definition str (e : exn) : string :=
  match e with
  | KeyError key => repr key
  | IndexError msg => msg
  | Exception msg => msg
  end.

(** The state threaded through a handler: the environment, and the
    image paths on which inference was run, oldest first. *)
Record State : Type := { env : Env; inference_log : list string }.

(** State and exceptions. *)
Definition M (A : Type) : Type := State → result A * State.

#[local] Instance M_ret : MRet M := λ A a s, (Ok a, s).
#[local] Instance M_bind : MBind M := λ A B f m s,
  match m s with
  | (Ok a, s') => f a s'
  | (Raise e, s') => (Raise e, s')
  end.

Definition lift {A : Type} (r : result A) : M A := λ s, (r, s).

(** [try: body except Exception as e: handler e] *)
Definition try_except {A : Type} (body : M A) (handler : exn → M A) : M A :=
  λ s,
    match body s with
    | (Ok a, s') => (Ok a, s')
    | (Raise e, s') => handler e s'
    end.

Definition call_model (image_path : string) : M (list Results) :=
  λ s,
    let '(r, e) := model image_path (env s) in
    (r, {| env := e; inference_log := inference_log s ++ [image_path] |}).

Definition save (file : FileStorage) (filepath : string) : M unit :=
  λ s,
    let '(r, e) := file_save file filepath (env s) in
    (r, {| env := e; inference_log := inference_log s |}).

Definition analyze_traffic (image_path : string) : M (gmap string value) :=
  results ← call_model image_path;
  lift (analyze_results results).

(** The handler of [/upload].  A response is the dictionary given to
    [jsonify] and the status code, 200 when the code names none. *)
Definition upload_image (request : Request) : M (gmap string value * Z) :=
  if negb (contains "image" (files request)) then
    mret ({[ "error" := VStr "No image uploaded" ]}, 400)
  else
    file ← lift (getitem (files request) "image");
    if String.eqb (filename file) "" then
      mret ({[ "error" := VStr "No file selected" ]}, 400)
    else
      allowed ← lift
        (if str_in "." (filename file) then
           ext ← list_getitem (rsplit1 "." (filename file)) 1;
           Ok (bool_decide (lower ext ∈ allowed_extensions))
         else Ok false);
      if negb allowed then
        mret ({[ "error" := VStr "Invalid file type. Use JPG or PNG" ]}, 400)
      else
        try_except
          (ext ← lift (list_getitem (rsplit1 "." (filename file)) 1);
           let filename := "latest_upload." +:+ lower ext in
           let filepath := os_path_join UPLOAD_FOLDER filename in
           save file filepath;;
           results ← analyze_traffic filepath;
           let results := <["image_url" := VStr ("/uploads/" +:+ filename)]> results in
           mret (results, 200))
          (λ e, mret ({[ "error" := VStr ("Processing failed: " +:+ str e) ]}, 500)).

End App.

Arguments State Env : clear implicits.
Arguments Build_State {Env} env inference_log.
Arguments env {Env} s.
Arguments inference_log {Env} s.
Arguments lift {Env A} r s.
Arguments try_except {Env A} body handler s.
Arguments call_model {Env} model image_path s.
Arguments save {Env} file_save file filepath s.
Arguments analyze_traffic {Env} model image_path s.
Arguments upload_image {Env} model file_save repr lower request s.

(** ** Vocabulary of the specification *)

(** The detections of a model output, in the order the loops visit them. *)
Definition detections (results : list Results) : list Box :=
  results ≫= boxes.

(** A model output for one image whose boxes have the given class ids. *)
Definition detector_output (class_ids : list Z) : list Results :=
  [ {| boxes := Build_Box <$> class_ids |} ].

(** The number of detections of class [c]. *)
Definition count_class (c : Z) (ds : list Box) : Z :=
  Z.of_nat (length (filter (λ box, cls box = c) ds)).

(** The class ids of the vehicle taxonomy. *)
Definition is_vehicle (c : Z) : bool :=
  bool_decide (c ∈ [2; 3; 5; 7]).

(** A [vehicle_counts] dictionary with all four keys. *)
Definition counts (car motorcycle bus truck : Z) : gmap string Z :=
  {[ "car" := car; "motorcycle" := motorcycle; "bus" := bus; "truck" := truck ]}.

(** The tiers, by severity. *)
Definition severity (density : string) : option nat :=
  if String.eqb density "Low" then Some 0%nat
  else if String.eqb density "Medium" then Some 1%nat
  else if String.eqb density "High" then Some 2%nat
  else None.

(** ** Stub collaborators, for the examples *)

(** A file store by path, a [save] that writes the uploaded bytes, and a
    detector that cannot decode an empty file and sees two cars, a
    motorcycle and a truck in any other. *)
Definition stub_save (file : FileStorage) (filepath : string)
    (store : gmap string (list byte)) : result unit * gmap string (list byte) :=
  (Ok (), <[filepath := stream file]> store).

Definition stub_model (image_path : string) (store : gmap string (list byte))
    : result (list Results) * gmap string (list byte) :=
  match store !! image_path with
  | Some (_ :: _) => (Ok (detector_output [2; 2; 3; 7]), store)
  | _ => (Raise (Exception "cannot identify image file"), store)
  end.

(** A [save] that fails: the disk is full. *)
Definition stub_save_full (file : FileStorage) (filepath : string)
    (store : gmap string (list byte)) : result unit * gmap string (list byte) :=
  (Raise (Exception "No space left on device"), store).

(** A detector that refuses every path but the three upload slots. *)
Definition stub_model_slots (image_path : string) (store : gmap string (list byte))
    : result (list Results) * gmap string (list byte) :=
  if bool_decide (image_path ∈ ["uploads/latest_upload.png";
                                "uploads/latest_upload.jpg";
                                "uploads/latest_upload.jpeg"])
  then stub_model image_path store
  else (Raise (Exception "unexpected path"), store).

(** [str.lower] on ASCII letters. *)
Definition ascii_lower (a : ascii) : ascii :=
  let n := nat_of_ascii a in
  if bool_decide (65 ≤ n ≤ 90)%nat then ascii_of_nat (n + 32) else a.

Fixpoint stub_lower (s : string) : string :=
  match s with
  | EmptyString => EmptyString
  | String a s' => String (ascii_lower a) (stub_lower s')
  end.

(** [repr] of integers, and of strings that need no escapes. *)
Definition stub_repr (v : value) : string :=
  match v with
  | VInt z => pretty z
  | VStr s => "'" +:+ s +:+ "'"
  | VDict _ => "{...}"
  end.

(** * Properties *)

(** ** The class table *)

Lemma VEHICLE_CLASSES_lookup (c : Z) :
  VEHICLE_CLASSES !! c =
    if decide (c = 2) then Some "car"
    else if decide (c = 3) then Some "motorcycle"
    else if decide (c = 5) then Some "bus"
    else if decide (c = 7) then Some "truck"
    else None.
Proof.
  unfold VEHICLE_CLASSES.
  repeat case_decide; simplify_map_eq; done.
Qed.

(** ** Sums of dictionaries *)

Lemma sum_values_insert (k : string) (v : Z) (d : gmap string Z) :
  d !! k = None → sum_values (<[k := v]> d) = sum_values d + v.
Proof.
  intros Hk. unfold sum_values.
  rewrite map_fold_insert_L; [done | intros; lia | done].
Qed.

Lemma sum_values_counts (a b c d : Z) :
  sum_values (counts a b c d) = a + b + c + d.
Proof.
  unfold counts.
  rewrite !sum_values_insert by (by simplify_map_eq).
  unfold sum_values. rewrite map_fold_singleton. lia.
Qed.

(** ** The tally *)

Lemma count_class_nil (c : Z) : count_class c [] = 0.
Proof. reflexivity. Qed.

Lemma count_class_cons (c : Z) (box : Box) (ds : list Box) :
  count_class c (box :: ds) =
    (if decide (cls box = c) then 1 else 0) + count_class c ds.
Proof.
  unfold count_class. rewrite filter_cons.
  case_decide; simpl length; lia.
Qed.

Lemma count_class_app (c : Z) (ds ds' : list Box) :
  count_class c (ds ++ ds') = count_class c ds + count_class c ds'.
Proof.
  unfold count_class. rewrite filter_app, length_app. lia.
Qed.

Lemma counts_lookup (a b c d : Z) (k : string) :
  counts a b c d !! k =
    if decide (k = "car") then Some a
    else if decide (k = "motorcycle") then Some b
    else if decide (k = "bus") then Some c
    else if decide (k = "truck") then Some d
    else None.
Proof.
  unfold counts. repeat case_decide; simplify_map_eq; done.
Qed.

(** Two dictionaries are compared key by key. *)
Ltac by_lookup :=
  apply map_eq; intros ?;
  rewrite ?lookup_insert, ?counts_lookup;
  repeat case_decide; simplify_eq; done.

Lemma counts_incr_car (a b c d : Z) :
  <["car" := a + 1]> (counts a b c d) = counts (a + 1) b c d.
Proof. by_lookup. Qed.

Lemma counts_incr_motorcycle (a b c d : Z) :
  <["motorcycle" := b + 1]> (counts a b c d) = counts a (b + 1) c d.
Proof. by_lookup. Qed.

Lemma counts_incr_bus (a b c d : Z) :
  <["bus" := c + 1]> (counts a b c d) = counts a b (c + 1) d.
Proof. by_lookup. Qed.

Lemma counts_incr_truck (a b c d : Z) :
  <["truck" := d + 1]> (counts a b c d) = counts a b c (d + 1).
Proof. by_lookup. Qed.

Lemma getitem_counts (a b c d : Z) :
  getitem (counts a b c d) "car" = Ok a ∧
  getitem (counts a b c d) "motorcycle" = Ok b ∧
  getitem (counts a b c d) "bus" = Ok c ∧
  getitem (counts a b c d) "truck" = Ok d.
Proof.
  unfold getitem. rewrite !counts_lookup.
  repeat split; repeat case_decide; simplify_eq; done.
Qed.

(** One iteration of the inner loop, on a dictionary with the four keys. *)
Lemma count_box_counts (a b c d : Z) (box : Box) :
  count_box (counts a b c d) box =
    Ok (counts (a + count_class 2 [box]) (b + count_class 3 [box])
               (c + count_class 5 [box]) (d + count_class 7 [box])).
Proof.
  destruct (getitem_counts a b c d) as (Ha & Hb & Hc & Hd).
  destruct box as [k].
  rewrite !count_class_cons, !count_class_nil.
  unfold count_box, contains. cbn [cls].
  unfold getitem at 1. rewrite VEHICLE_CLASSES_lookup.
  repeat case_decide; subst; try lia; cbn -[counts getitem];
    rewrite ?Ha, ?Hb, ?Hc, ?Hd, ?Z.add_0_r; cbn -[counts];
    by rewrite ?counts_incr_car, ?counts_incr_motorcycle,
               ?counts_incr_bus, ?counts_incr_truck.
Qed.

(** The inner loop. *)
Lemma for_each_count_box (ds : list Box) (a b c d : Z) :
  for_each count_box ds (counts a b c d) =
    Ok (counts (a + count_class 2 ds) (b + count_class 3 ds)
               (c + count_class 5 ds) (d + count_class 7 ds)).
Proof.
  revert a b c d. induction ds as [|box ds IH]; intros a b c d.
  - cbn -[counts]. by rewrite !count_class_nil, !Z.add_0_r.
  - cbn -[counts count_box]. rewrite count_box_counts.
    cbn -[counts]. rewrite IH.
    rewrite !(count_class_cons _ box ds), !count_class_cons, !count_class_nil.
    do 2 f_equal; lia.
Qed.

(** Both loops: the counters after the tally, in closed form. *)
Lemma for_each_results (results : list Results) (a b c d : Z) :
  for_each (λ vehicle_counts result,
              for_each count_box (boxes result) vehicle_counts)
           results (counts a b c d) =
    Ok (counts (a + count_class 2 (detections results))
               (b + count_class 3 (detections results))
               (c + count_class 5 (detections results))
               (d + count_class 7 (detections results))).
Proof.
  revert a b c d. induction results as [|r rs IH]; intros a b c d.
  - cbn -[counts]. by rewrite !count_class_nil, !Z.add_0_r.
  - cbn -[counts count_box]. rewrite for_each_count_box.
    cbn -[counts]. rewrite IH.
    unfold detections. cbn [mbind list_bind]. fold (detections rs).
    rewrite !count_class_app. do 2 f_equal; lia.
Qed.

Lemma tally_counts (results : list Results) :
  tally results =
    Ok (counts (count_class 2 (detections results))
               (count_class 3 (detections results))
               (count_class 5 (detections results))
               (count_class 7 (detections results))).
Proof.
  unfold tally. fold (counts 0 0 0 0). by rewrite for_each_results.
Qed.

(** The counters do not depend on the order of the detections. *)
#[export] Instance count_class_Permutation (c : Z) :
  Proper ((≡ₚ) ==> (=)) (count_class c).
Proof.
  intros ds ds' Hperm. unfold count_class. by rewrite Hperm.
Qed.

Lemma count_class_nonneg (c : Z) (ds : list Box) : 0 ≤ count_class c ds.
Proof. unfold count_class. lia. Qed.

(** A detection is a vehicle when it is counted for one of the classes. *)
Lemma is_vehicle_count (box : Box) :
  count_class 2 [box] + count_class 3 [box] +
  count_class 5 [box] + count_class 7 [box] =
    if is_vehicle (cls box) then 1 else 0.
Proof.
  rewrite !count_class_cons, !count_class_nil. unfold is_vehicle.
  case_bool_decide as Hv; rewrite !elem_of_cons, elem_of_nil in Hv;
    repeat case_decide; lia.
Qed.

Lemma is_vehicle_false_count (c : Z) (ds : list Box) :
  Forall (λ box, is_vehicle (cls box) = false) ds →
  is_vehicle c = true → count_class c ds = 0.
Proof.
  intros Hds Hc. induction Hds as [|box ds Hbox _ IH]; [done|].
  rewrite count_class_cons, IH. case_decide; [congruence | done].
Qed.

(** The number of vehicles among the detections. *)
Lemma vehicles_total (ds : list Box) :
  count_class 2 ds + count_class 3 ds + count_class 5 ds + count_class 7 ds =
    Z.of_nat (length (filter (λ box, is_vehicle (cls box) = true) ds)).
Proof.
  induction ds as [|box ds IH]; [done|].
  rewrite !(count_class_cons _ box ds), filter_cons.
  pose proof (is_vehicle_count box) as Hbox.
  rewrite !count_class_cons, !count_class_nil in Hbox.
  destruct (is_vehicle (cls box)); repeat case_decide; try done;
    cbn [length]; lia.
Qed.

(** ** The result dictionary *)

Lemma analyze_results_ok (results : list Results) :
  let vehicle_counts :=
    counts (count_class 2 (detections results))
           (count_class 3 (detections results))
           (count_class 5 (detections results))
           (count_class 7 (detections results)) in
  let total_vehicles := sum_values vehicle_counts in
  analyze_results results =
    Ok {[ "total_vehicles" := VInt total_vehicles;
          "vehicle_counts" := VDict vehicle_counts;
          "density" := VStr (classify_density total_vehicles).1.1;
          "density_color" := VStr (classify_density total_vehicles).1.2;
          "green_duration" := VInt (classify_density total_vehicles).2 ]}.
Proof.
  intros vehicle_counts total_vehicles.
  unfold analyze_results. rewrite tally_counts.
  cbn -[counts sum_values classify_density].
  fold vehicle_counts. fold total_vehicles.
  by destruct (classify_density total_vehicles) as [[? ?] ?].
Qed.

(** ** The density thresholds *)

(** C1.  For a non-negative total, the density classification of
    [analyze_traffic] gives Low, [#4CAF50] and 30 seconds on 0..5, Medium,
    [#FF9800] and 45 on 6..15, and High, [#F44336] and 60 from 16 on; the
    band edges 5, 6, 15 and 16 fall on Low, Medium, Medium and High.  The
    result dictionary holds this row for the sum of the counters. *)
Theorem classify_density_bands (n : Z) :
  0 ≤ n →
  (n ≤ 5 → classify_density n = ("Low", "#4CAF50", 30)) ∧
  (6 ≤ n ≤ 15 → classify_density n = ("Medium", "#FF9800", 45)) ∧
  (16 ≤ n → classify_density n = ("High", "#F44336", 60)) ∧
  classify_density 5 = ("Low", "#4CAF50", 30) ∧
  classify_density 6 = ("Medium", "#FF9800", 45) ∧
  classify_density 15 = ("Medium", "#FF9800", 45) ∧
  classify_density 16 = ("High", "#F44336", 60) ∧
  (∀ results vehicle_counts,
     tally results = Ok vehicle_counts → sum_values vehicle_counts = n →
     ∃ result,
       analyze_results results = Ok result ∧
       result !! "total_vehicles" = Some (VInt n) ∧
       result !! "density" = Some (VStr (classify_density n).1.1) ∧
       result !! "density_color" = Some (VStr (classify_density n).1.2) ∧
       result !! "green_duration" = Some (VInt (classify_density n).2)).
Proof.
  intros Hn.
  assert (∀ results vehicle_counts,
     tally results = Ok vehicle_counts → sum_values vehicle_counts = n →
     ∃ result,
       analyze_results results = Ok result ∧
       result !! "total_vehicles" = Some (VInt n) ∧
       result !! "density" = Some (VStr (classify_density n).1.1) ∧
       result !! "density_color" = Some (VStr (classify_density n).1.2) ∧
       result !! "green_duration" = Some (VInt (classify_density n).2)) as Huse.
  { intros results vehicle_counts Htally Hsum.
    unfold analyze_results. rewrite Htally. cbn [mbind result_bind].
    rewrite Hsum. destruct (classify_density n) as [[density color] green].
    eexists. split; [done|]. by simplify_map_eq. }
  unfold classify_density.
  repeat split; try reflexivity; try exact Huse; intros Hband.
  - destruct (Z.leb_spec n 5); [done | lia].
  - destruct (Z.leb_spec n 5); [lia|].
    destruct (Z.leb_spec n 15); [done | lia].
  - destruct (Z.leb_spec n 5); [lia|].
    destruct (Z.leb_spec n 15); [lia | done].
Qed.

Lemma classify_density_bands_witness :
  classify_density 0 = ("Low", "#4CAF50", 30) ∧
  classify_density 9 = ("Medium", "#FF9800", 45) ∧
  classify_density 1000 = ("High", "#F44336", 60).
Proof.
  split; [|split].
  - apply (classify_density_bands 0); lia.
  - apply (classify_density_bands 9); lia.
  - apply (classify_density_bands 1000); lia.
Defined.

(** C5.  On non-negative totals the density classification always returns
    one of the three rows Low, Medium, High, whatever the size of the
    total, and the tier never decreases in severity when the total grows. *)
Theorem classify_density_total_monotone (m n : Z) :
  0 ≤ m → m ≤ n →
  classify_density n ∈
    [("Low", "#4CAF50", 30); ("Medium", "#FF9800", 45); ("High", "#F44336", 60)] ∧
  (classify_density n).1.1 ∈ ["Low"; "Medium"; "High"] ∧
  ∃ i j : nat,
    severity (classify_density m).1.1 = Some i ∧
    severity (classify_density n).1.1 = Some j ∧
    (i ≤ j)%nat.
Proof.
  intros Hm Hmn. unfold classify_density.
  destruct (Z.leb_spec m 5), (Z.leb_spec m 15),
           (Z.leb_spec n 5), (Z.leb_spec n 15); try lia;
    (split; [set_solver | split; [set_solver |]]);
    cbn; eexists _, _; repeat split; lia.
Qed.

Lemma classify_density_total_monotone_witness :
  (classify_density 16).1.1 ∈ ["Low"; "Medium"; "High"] ∧
  ∃ i j : nat,
    severity (classify_density 5).1.1 = Some i ∧
    severity (classify_density 16).1.1 = Some j ∧
    (i ≤ j)%nat.
Proof.
  apply (classify_density_total_monotone 5 16); lia.
Defined.

(** ** Claims on the tally *)

(** C2.  The tally counts a detection exactly when its class id is 2, 3, 5
    or 7, on the counter of car, motorcycle, bus or truck respectively, and
    by one; any other detection leaves the counters as they are and raises
    nothing.  Detections with non-vehicle ids only, such as 0 and 9, give
    four zero counters and a total of 0. *)
Theorem tally_counts_vehicle_classes (results : list Results) :
  tally results =
    Ok (counts (count_class 2 (detections results))
               (count_class 3 (detections results))
               (count_class 5 (detections results))
               (count_class 7 (detections results))) ∧
  (∀ (a b c d : Z) (box : Box),
     count_box (counts a b c d) box =
       Ok (if decide (cls box = 2) then counts (a + 1) b c d
           else if decide (cls box = 3) then counts a (b + 1) c d
           else if decide (cls box = 5) then counts a b (c + 1) d
           else if decide (cls box = 7) then counts a b c (d + 1)
           else counts a b c d)) ∧
  (Forall (λ box, is_vehicle (cls box) = false) (detections results) →
     tally results = Ok (counts 0 0 0 0) ∧
     sum_values (counts 0 0 0 0) = 0) ∧
  tally (detector_output [0; 9]) = Ok (counts 0 0 0 0).
Proof.
  split; [apply tally_counts|]. split; [|split].
  - intros a b c d box. rewrite count_box_counts.
    rewrite !count_class_cons, !count_class_nil.
    repeat case_decide; try lia; by rewrite ?Z.add_0_r.
  - intros Hnone. rewrite tally_counts.
    rewrite !(is_vehicle_false_count _ _ Hnone) by done.
    by rewrite sum_values_counts.
  - by rewrite tally_counts.
Qed.

(** C9.  The tally is total on arbitrary integer class ids: a detection
    whose id is not 2, 3, 5 or 7, negative ids and ids above 79 included,
    is skipped by the membership test whatever the dictionary of counters
    holds, and no tally ends in an exception. *)
Theorem tally_never_raises (results : list Results) :
  (∃ vehicle_counts, tally results = Ok vehicle_counts) ∧
  (∀ e, tally results ≠ Raise e) ∧
  (∀ (vehicle_counts : gmap string Z) (box : Box),
     is_vehicle (cls box) = false →
     count_box vehicle_counts box = Ok vehicle_counts) ∧
  (∀ vehicle_counts : gmap string Z,
     count_box vehicle_counts {| cls := -1 |} = Ok vehicle_counts ∧
     count_box vehicle_counts {| cls := 80 |} = Ok vehicle_counts).
Proof.
  assert (∀ (vehicle_counts : gmap string Z) (box : Box),
            is_vehicle (cls box) = false →
            count_box vehicle_counts box = Ok vehicle_counts) as Hskip.
  { intros vc [k]. unfold is_vehicle, count_box, contains. cbn [cls].
    intros Hk%bool_decide_eq_false.
    rewrite !elem_of_cons, elem_of_nil in Hk.
    rewrite VEHICLE_CLASSES_lookup.
    repeat case_decide; subst; tauto. }
  rewrite tally_counts. repeat split; eauto.
Qed.

(** C10.  The total of the result is at most the number of detections:
    one iteration of the loop adds 1 to the sum of the counters when the
    class id is 2, 3, 5 or 7 and adds 0 otherwise. *)
Theorem total_vehicles_le_detections (results : list Results) :
  (∃ result total_vehicles,
     analyze_results results = Ok result ∧
     result !! "total_vehicles" = Some (VInt total_vehicles) ∧
     total_vehicles =
       Z.of_nat (length (filter (λ box, is_vehicle (cls box) = true)
                                (detections results))) ∧
     0 ≤ total_vehicles ≤ Z.of_nat (length (detections results))) ∧
  (∀ (a b c d : Z) (box : Box),
     ∃ vehicle_counts,
       count_box (counts a b c d) box = Ok vehicle_counts ∧
       sum_values vehicle_counts =
         sum_values (counts a b c d) + (if is_vehicle (cls box) then 1 else 0)).
Proof.
  split.
  - rewrite analyze_results_ok. eexists _, _.
    split; [done|]. split; [by simplify_map_eq|].
    rewrite sum_values_counts, vehicles_total.
    split; [done|]. split; [lia|].
    apply inj_le, length_filter.
  - intros a b c d box. rewrite count_box_counts. eexists. split; [done|].
    rewrite !sum_values_counts, <-is_vehicle_count. lia.
Qed.

(** C6.  Reordering the detections changes nothing: two model outputs
    whose detections are permutations of each other get the same counters,
    hence the same total, density and result. *)
Theorem tally_permutation (results results' : list Results) :
  detections results ≡ₚ detections results' →
  tally results = tally results' ∧
  analyze_results results = analyze_results results'.
Proof.
  intros Hperm.
  assert (tally results = tally results') as Htally.
  { rewrite !tally_counts. by rewrite Hperm. }
  split; [done|]. unfold analyze_results. by rewrite Htally.
Qed.

Lemma tally_permutation_witness :
  tally (detector_output [2; 0; 7; 5]) = tally (detector_output [0; 2; 5; 7]) ∧
  analyze_results (detector_output [2; 0; 7; 5]) =
    analyze_results (detector_output [0; 2; 5; 7]).
Proof.
  apply (tally_permutation (detector_output [2; 0; 7; 5])
                           (detector_output [0; 2; 5; 7])).
  cbn. etrans; [apply perm_swap|]. do 2 apply perm_skip. apply perm_swap.
Defined.

(** C7.  The three end-to-end scenarios of the pipeline, tally then
    classification: class ids [2,2,3,7] give two cars, one motorcycle, no
    bus and one truck, a total of 4 and Low with 30 seconds; eight times
    id 2 gives a total of 8 and Medium with 45; twenty times id 5 gives a
    total of 20 and High with 60. *)
Theorem end_to_end_scenarios :
  (tally (detector_output [2; 2; 3; 7]) = Ok (counts 2 1 0 1) ∧
   analyze_results (detector_output [2; 2; 3; 7]) =
     Ok {[ "total_vehicles" := VInt 4;
           "vehicle_counts" := VDict (counts 2 1 0 1);
           "density" := VStr "Low";
           "density_color" := VStr "#4CAF50";
           "green_duration" := VInt 30 ]}) ∧
  (tally (detector_output (replicate 8 2)) = Ok (counts 8 0 0 0) ∧
   analyze_results (detector_output (replicate 8 2)) =
     Ok {[ "total_vehicles" := VInt 8;
           "vehicle_counts" := VDict (counts 8 0 0 0);
           "density" := VStr "Medium";
           "density_color" := VStr "#FF9800";
           "green_duration" := VInt 45 ]}) ∧
  (tally (detector_output (replicate 20 5)) = Ok (counts 0 0 20 0) ∧
   analyze_results (detector_output (replicate 20 5)) =
     Ok {[ "total_vehicles" := VInt 20;
           "vehicle_counts" := VDict (counts 0 0 20 0);
           "density" := VStr "High";
           "density_color" := VStr "#F44336";
           "green_duration" := VInt 60 ]}).
Proof.
  repeat split.
  all: rewrite ?analyze_results_ok, ?tally_counts, ?sum_values_counts; done.
Qed.

(** ** File names *)

Lemma rsplit1_cases (c : ascii) (s : string) :
  (str_in c s = false ∧ rsplit1 c s = [s]) ∨
  (str_in c s = true ∧ ∃ stem ext, rsplit1 c s = [stem; ext]).
Proof.
  induction s as [|a s IH]; [by left|].
  cbn [str_in rsplit1].
  destruct IH as [[Hin ->]|[Hin (stem & ext & ->)]]; rewrite Hin.
  - case_bool_decide; [right | left]; eauto.
  - right. rewrite orb_true_r. eauto.
Qed.

Lemma rsplit1_str_in (c : ascii) (s stem ext : string) :
  rsplit1 c s = [stem; ext] → str_in c s = true.
Proof.
  intros Hs. destruct (rsplit1_cases c s) as [[_ Hs']|[? _]]; [|done].
  congruence.
Qed.

(** ** The handler *)

Section AppProperties.

Context {Env : Type}.
Context (model : string → Env → result (list Results) * Env).
Context (file_save : FileStorage → string → Env → result unit * Env).
Context (repr : value → string) (lower : string → string).

(** [analyze_traffic] is one call of the model followed by the pure part
    of the function. *)
Lemma analyze_traffic_unfold (image_path : string) (s : State Env) :
  analyze_traffic model image_path s =
    ((model image_path (env s)).1 ≫= analyze_results,
     {| env := (model image_path (env s)).2;
        inference_log := inference_log s ++ [image_path] |}).
Proof.
  unfold analyze_traffic, call_model, lift, mbind at 1, M_bind.
  by destruct (model image_path (env s)) as [[results|e] env'].
Qed.

(** C8.  A call of [analyze_traffic] runs inference exactly once, on its
    argument, whether the model returns or raises: the log of inference
    calls grows by that one entry, an exception of the model is the
    outcome of the call as it is, with no second pass and no substitute
    result, and a returned output is the only one the result is computed
    from. *)
Theorem analyze_traffic_one_inference (image_path : string) (s : State Env) :
  inference_log (analyze_traffic model image_path s).2 =
    (inference_log s ++ [image_path])%list ∧
  length (inference_log (analyze_traffic model image_path s).2) =
    S (length (inference_log s)) ∧
  env (analyze_traffic model image_path s).2 = (model image_path (env s)).2 ∧
  (∀ e, (model image_path (env s)).1 = Raise e →
        (analyze_traffic model image_path s).1 = Raise e) ∧
  (∀ results, (model image_path (env s)).1 = Ok results →
        (analyze_traffic model image_path s).1 = analyze_results results).
Proof.
  rewrite analyze_traffic_unfold. cbn [fst snd env inference_log].
  repeat split.
  - rewrite length_app. cbn. lia.
  - by intros e ->.
  - by intros results ->.
Qed.

(** C4.  Whatever the model returns, the result of [analyze_traffic] has
    under [vehicle_counts] a dictionary with exactly the keys car,
    motorcycle, bus and truck, each with a non-negative integer, and
    under [total_vehicles] the sum of these four integers. *)
Theorem analyze_traffic_counts_invariant
    (image_path : string) (s : State Env) (results : list Results) :
  (model image_path (env s)).1 = Ok results →
  ∃ (result : gmap string value) (vehicle_counts : gmap string Z)
    (car motorcycle bus truck : Z),
    (analyze_traffic model image_path s).1 = Ok result ∧
    result !! "vehicle_counts" = Some (VDict vehicle_counts) ∧
    dom vehicle_counts = {[ "car"; "motorcycle"; "bus"; "truck" ]} ∧
    vehicle_counts !! "car" = Some car ∧
    vehicle_counts !! "motorcycle" = Some motorcycle ∧
    vehicle_counts !! "bus" = Some bus ∧
    vehicle_counts !! "truck" = Some truck ∧
    (∀ k n, vehicle_counts !! k = Some n → 0 ≤ n) ∧
    result !! "total_vehicles" = Some (VInt (car + motorcycle + bus + truck)) ∧
    sum_values vehicle_counts = car + motorcycle + bus + truck.
Proof.
  intros Hmodel. rewrite analyze_traffic_unfold. cbn [fst]. rewrite Hmodel.
  cbn [mbind result_bind]. rewrite analyze_results_ok.
  set (ds := detections results).
  eexists _, (counts (count_class 2 ds) (count_class 3 ds)
                     (count_class 5 ds) (count_class 7 ds)),
          (count_class 2 ds), (count_class 3 ds),
          (count_class 5 ds), (count_class 7 ds).
  split; [done|]. split; [by simplify_map_eq|].
  split; [unfold counts; rewrite !dom_insert_L, dom_singleton_L; set_solver|].
  rewrite !counts_lookup. do 4 (split; [done|]).
  split.
  - intros k n. rewrite counts_lookup.
    repeat case_decide; intros; simplify_eq; apply count_class_nonneg.
  - rewrite sum_values_counts. split; [by simplify_map_eq | done].
Qed.

(** C3.  When the model raises, [analyze_traffic] raises the same
    exception and returns no result dictionary; the handler that called
    it answers with the single entry [error], which carries the text of
    that exception, and status 500, so no counts, total or density
    reach the client. *)
Theorem analyze_traffic_model_error
    (image_path : string) (s : State Env) (e : exn) :
  (model image_path (env s)).1 = Raise e →
  (analyze_traffic model image_path s).1 = Raise e ∧
  (∀ result, (analyze_traffic model image_path s).1 ≠ Ok result) ∧
  ∀ (request : Request) (file : FileStorage) (stem ext : string)
    (s0 : State Env),
    files request !! "image" = Some file →
    filename file ≠ "" →
    rsplit1 "." (filename file) = [stem; ext] →
    lower ext ∈ allowed_extensions →
    os_path_join UPLOAD_FOLDER ("latest_upload." +:+ lower ext) = image_path →
    file_save file image_path (env s0) = (Ok (), env s) →
    inference_log s0 = inference_log s →
    upload_image model file_save repr lower request s0 =
      (Ok ({[ "error" := VStr ("Processing failed: " +:+ str repr e) ]}, 500),
       (analyze_traffic model image_path s).2).
Proof.
  intros Hmodel.
  assert ((analyze_traffic model image_path s).1 = Raise e) as Hraise.
  { rewrite analyze_traffic_unfold. cbn [fst]. by rewrite Hmodel. }
  split; [done|]. split; [by rewrite Hraise|].
  intros request file stem ext s0 Hfile Hname Hsplit Hext Hpath Hsave Hlog.
  unfold upload_image, contains.
  rewrite bool_decide_eq_true_2 by (by rewrite Hfile).
  cbn [negb]. unfold getitem. rewrite Hfile.
  unfold mbind at 1, M_bind, lift at 1.
  apply String.eqb_neq in Hname. rewrite Hname.
  rewrite (rsplit1_str_in _ _ _ _ Hsplit), Hsplit.
  cbn [list_getitem lookup list_lookup mbind result_bind].
  rewrite bool_decide_eq_true_2 by done.
  unfold mbind, M_bind, lift, try_except, save. cbn [negb].
  rewrite Hpath, Hsave, Hlog.
  replace {| env := env s; inference_log := inference_log s |} with s
    by (by destruct s).
  destruct (analyze_traffic model image_path s) as [r s'].
  cbn [fst] in Hraise. by subst r.
Qed.

End AppProperties.

(** ** Examples with the stub collaborators *)

Lemma analyze_traffic_model_error_witness :
  let request :=
    {| files := {[ "image" := {| filename := "junction.JPG"; stream := [] |} ]} |} in
  let image_path := "uploads/latest_upload.jpg" in
  let s := {| env := {[ image_path := [] ]}; inference_log := [] |} in
  (analyze_traffic stub_model image_path s).1 =
    Raise (Exception "cannot identify image file") ∧
  upload_image stub_model stub_save stub_repr stub_lower request
      {| env := ∅; inference_log := [] |} =
    (Ok ({[ "error" := VStr "Processing failed: cannot identify image file" ]}, 500),
     {| env := {[ image_path := [] ]}; inference_log := [image_path] |}).
Proof.
  intros request image_path s.
  destruct (analyze_traffic_model_error stub_model stub_save stub_repr
              stub_lower image_path s (Exception "cannot identify image file"))
    as (Hraise & _ & Hupload); [reflexivity|].
  split; [exact Hraise|].
  rewrite (Hupload request {| filename := "junction.JPG"; stream := [] |}
             "junction" "JPG" {| env := ∅; inference_log := [] |});
    try reflexivity.
  discriminate.
Defined.

Lemma analyze_traffic_counts_invariant_witness :
  let image_path := "uploads/latest_upload.png" in
  let s := {| env := {[ image_path := ["x"%byte] ]}; inference_log := [] |} in
  ∃ (result : gmap string value) (vehicle_counts : gmap string Z)
    (car motorcycle bus truck : Z),
    (analyze_traffic stub_model image_path s).1 = Ok result ∧
    result !! "vehicle_counts" = Some (VDict vehicle_counts) ∧
    dom vehicle_counts = {[ "car"; "motorcycle"; "bus"; "truck" ]} ∧
    vehicle_counts !! "car" = Some car ∧
    vehicle_counts !! "motorcycle" = Some motorcycle ∧
    vehicle_counts !! "bus" = Some bus ∧
    vehicle_counts !! "truck" = Some truck ∧
    (∀ k n, vehicle_counts !! k = Some n → 0 ≤ n) ∧
    result !! "total_vehicles" = Some (VInt (car + motorcycle + bus + truck)) ∧
    sum_values vehicle_counts = car + motorcycle + bus + truck.
Proof.
  intros image_path s.
  apply (analyze_traffic_counts_invariant stub_model image_path s
           (detector_output [2; 2; 3; 7])).
  reflexivity.
Defined.


Example rsplit1_examples :
  rsplit1 "." "a.b.JPG" = ["a.b"; "JPG"] ∧
  rsplit1 "." "noextension" = ["noextension"] ∧
  rsplit1 "." "trailing." = ["trailing"; ""].
Proof. by vm_compute. Qed.

Example os_path_join_examples :
  os_path_join "uploads" "latest_upload.jpg" = "uploads/latest_upload.jpg" ∧
  os_path_join "uploads/" "latest_upload.jpg" = "uploads/latest_upload.jpg" ∧
  os_path_join "uploads" "/tmp/x.png" = "/tmp/x.png".
Proof. by vm_compute. Qed.

(** A decodable upload: the result of the analysis with the image URL
    added, status 200, one inference call. *)
Example upload_image_ok :
  upload_image stub_model stub_save stub_repr stub_lower
      {| files := {[ "image" := {| filename := "junction.PNG";
                                   stream := ["x"%byte] |} ]} |}
      {| env := ∅; inference_log := [] |} =
    (Ok ({[ "total_vehicles" := VInt 4;
            "vehicle_counts" := VDict (counts 2 1 0 1);
            "density" := VStr "Low";
            "density_color" := VStr "#4CAF50";
            "green_duration" := VInt 30;
            "image_url" := VStr "/uploads/latest_upload.png" ]}, 200),
     {| env := {[ "uploads/latest_upload.png" := ["x"%byte] ]};
        inference_log := ["uploads/latest_upload.png"] |}).
Proof. vm_compute. reflexivity. Qed.

(** Requests that are refused before any inference. *)
Example upload_image_refused :
  upload_image stub_model stub_save stub_repr stub_lower
      {| files := ∅ |} {| env := ∅; inference_log := [] |} =
    (Ok ({[ "error" := VStr "No image uploaded" ]}, 400),
     {| env := ∅; inference_log := [] |}) ∧
  upload_image stub_model stub_save stub_repr stub_lower
      {| files := {[ "image" := {| filename := "notes.txt"; stream := [] |} ]} |}
      {| env := ∅; inference_log := [] |} =
    (Ok ({[ "error" := VStr "Invalid file type. Use JPG or PNG" ]}, 400),
     {| env := ∅; inference_log := [] |}).
Proof. vm_compute. split; reflexivity. Qed.

(** * Further properties of the code *)

(** ** Loops and sums *)

Lemma for_each_app {A S : Type} (body : S → A → result S) (xs ys : list A) (s : S) :
  for_each body (xs ++ ys) s = for_each body xs s ≫= for_each body ys.
Proof.
  revert s. induction xs as [|x xs IH]; intros s; [done|].
  cbn [app for_each]. destruct (body s x) as [s'|e]; [|done].
  cbn [mbind result_bind]. apply IH.
Qed.

Lemma detections_app (results results' : list Results) :
  detections (results ++ results') = (detections results ++ detections results')%list.
Proof. unfold detections. apply bind_app. Qed.

(** Overwriting an entry changes the sum by the difference. *)
Lemma sum_values_update (k : string) (n v : Z) (d : gmap string Z) :
  d !! k = Some n → sum_values (<[k := v]> d) = sum_values d - n + v.
Proof.
  intros Hk.
  rewrite <-(insert_delete_eq d k v).
  rewrite <-(insert_delete_id d k n) at 2 by done.
  rewrite !sum_values_insert by apply lookup_delete_eq. lia.
Qed.

Lemma count_class_filter_vehicle (c : Z) (ds : list Box) :
  is_vehicle c = true →
  count_class c (filter (λ box, is_vehicle (cls box) = true) ds) = count_class c ds.
Proof.
  intros Hc. induction ds as [|box ds IH]; [done|].
  rewrite filter_cons. case_decide as Hbox.
  - by rewrite !(count_class_cons _ box), IH.
  - rewrite count_class_cons, IH. case_decide; [congruence | done].
Qed.

(** ** The loop body on an arbitrary dictionary *)

(** X1.  On any dictionary of counters, one iteration of the loop either
    succeeds, keeping the set of keys and adding 1 to the sum of the
    counters for a vehicle id and 0 otherwise, or raises [KeyError] on the
    label of the detection's class, which happens only when that label is
    missing from the dictionary. *)
Theorem count_box_any_counters (vehicle_counts : gmap string Z) (box : Box) :
  (∀ vehicle_counts',
     count_box vehicle_counts box = Ok vehicle_counts' →
     dom vehicle_counts' = dom vehicle_counts ∧
     sum_values vehicle_counts' =
       sum_values vehicle_counts + (if is_vehicle (cls box) then 1 else 0)) ∧
  (∀ e,
     count_box vehicle_counts box = Raise e →
     ∃ vehicle_type,
       e = KeyError (VStr vehicle_type) ∧
       VEHICLE_CLASSES !! cls box = Some vehicle_type ∧
       vehicle_counts !! vehicle_type = None) ∧
  ({[ "car"; "motorcycle"; "bus"; "truck" ]} ⊆ dom vehicle_counts →
     ∃ vehicle_counts', count_box vehicle_counts box = Ok vehicle_counts').
Proof.
  assert (is_vehicle (cls box) = bool_decide (is_Some (VEHICLE_CLASSES !! cls box)))
    as Hv.
  { unfold is_vehicle. rewrite VEHICLE_CLASSES_lookup.
    case_bool_decide as Hin; rewrite !elem_of_cons, elem_of_nil in Hin;
      repeat case_decide; symmetry;
      first [ by apply bool_decide_eq_true_2
            | apply bool_decide_eq_false_2; intros [? ?]; done
            | tauto ]. }
  unfold count_box, contains, getitem. cbn zeta. rewrite Hv.
  destruct (VEHICLE_CLASSES !! cls box) as [vehicle_type|] eqn:Hclass.
  - rewrite bool_decide_eq_true_2 by done. cbn [mbind result_bind].
    destruct (vehicle_counts !! vehicle_type) as [n|] eqn:Hcount;
      cbn [mbind result_bind].
    + split; [|split].
      * intros ? [= <-]. split.
        -- by apply dom_insert_lookup_L.
        -- rewrite (sum_values_update _ n) by done. lia.
      * intros e [=].
      * eauto.
    + split; [|split].
      * intros ? [=].
      * intros e [= <-]. eauto.
      * intros Hkeys. exfalso.
        apply not_elem_of_dom in Hcount. apply Hcount, Hkeys.
        rewrite VEHICLE_CLASSES_lookup in Hclass.
        repeat case_decide; simplify_eq; set_solver.
  - rewrite bool_decide_eq_false_2 by (by intros [? ?]).
    split; [|split].
    + intros ? [= <-]. split; [done | lia].
    + intros e [=].
    + eauto.
Qed.

(** ** Composition of the tally *)

(** X2.  The tally of two model outputs put one after the other is the
    sum, counter by counter, of their tallies, and so is the total. *)
Theorem tally_app (results results' : list Results) :
  ∃ a b c d a' b' c' d' : Z,
    tally results = Ok (counts a b c d) ∧
    tally results' = Ok (counts a' b' c' d') ∧
    tally (results ++ results') = Ok (counts (a + a') (b + b') (c + c') (d + d')) ∧
    sum_values (counts (a + a') (b + b') (c + c') (d + d')) =
      sum_values (counts a b c d) + sum_values (counts a' b' c' d').
Proof.
  do 8 eexists. rewrite !tally_counts, detections_app, !count_class_app.
  repeat split. rewrite !sum_values_counts. lia.
Qed.

(** X3.  Detections of other classes have no influence at all: two model
    outputs with the same vehicle detections, up to order, get the same
    counters and the same result, whatever else was detected. *)
Theorem non_vehicles_ignored (results results' : list Results) :
  filter (λ box, is_vehicle (cls box) = true) (detections results) ≡ₚ
  filter (λ box, is_vehicle (cls box) = true) (detections results') →
  tally results = tally results' ∧
  analyze_results results = analyze_results results'.
Proof.
  intros Hperm.
  assert (∀ c, is_vehicle c = true →
            count_class c (detections results) =
            count_class c (detections results')) as Hcount.
  { intros c Hc.
    rewrite <-(count_class_filter_vehicle c (detections results)) by done.
    rewrite <-(count_class_filter_vehicle c (detections results')) by done.
    by rewrite Hperm. }
  assert (tally results = tally results') as Htally.
  { rewrite !tally_counts. by rewrite !Hcount. }
  split; [done|]. unfold analyze_results. by rewrite Htally.
Qed.

Lemma non_vehicles_ignored_witness :
  tally (detector_output [0; 2; 9; 7; 1]) =
    tally [ {| boxes := [ {| cls := 7 |} ] |}; {| boxes := [] |};
            {| boxes := [ {| cls := 80 |}; {| cls := 2 |} ] |} ] ∧
  analyze_results (detector_output [0; 2; 9; 7; 1]) =
    analyze_results [ {| boxes := [ {| cls := 7 |} ] |}; {| boxes := [] |};
                      {| boxes := [ {| cls := 80 |}; {| cls := 2 |} ] |} ].
Proof.
  apply (non_vehicles_ignored (detector_output [0; 2; 9; 7; 1])).
  apply perm_swap.
Defined.

(** ** More detections *)

Lemma classify_density_duration_mono (m n : Z) :
  m ≤ n → (classify_density m).2 ≤ (classify_density n).2.
Proof.
  intros Hmn. unfold classify_density.
  destruct (Z.leb_spec m 5), (Z.leb_spec m 15),
           (Z.leb_spec n 5), (Z.leb_spec n 15); cbn [snd]; lia.
Qed.

(** X4.  Detections that come on top of a model output never lower the
    total and never shorten the green light. *)
Theorem more_detections_monotone (results results' : list Results) :
  ∃ (result result' : gmap string value) (n n' g g' : Z),
    analyze_results results = Ok result ∧
    analyze_results (results ++ results') = Ok result' ∧
    result !! "total_vehicles" = Some (VInt n) ∧
    result' !! "total_vehicles" = Some (VInt n') ∧
    result !! "green_duration" = Some (VInt g) ∧
    result' !! "green_duration" = Some (VInt g') ∧
    n ≤ n' ∧ g ≤ g'.
Proof.
  rewrite !analyze_results_ok. do 6 eexists.
  do 2 (split; [done|]). do 4 (split; [by simplify_map_eq|]).
  assert (sum_values
            (counts (count_class 2 (detections results))
                    (count_class 3 (detections results))
                    (count_class 5 (detections results))
                    (count_class 7 (detections results))) ≤
          sum_values
            (counts (count_class 2 (detections (results ++ results')))
                    (count_class 3 (detections (results ++ results')))
                    (count_class 5 (detections (results ++ results')))
                    (count_class 7 (detections (results ++ results'))))) as Hle.
  { rewrite !sum_values_counts, detections_app, !count_class_app.
    pose proof (count_class_nonneg 2 (detections results')).
    pose proof (count_class_nonneg 3 (detections results')).
    pose proof (count_class_nonneg 5 (detections results')).
    pose proof (count_class_nonneg 7 (detections results')). lia. }
  split; [done | by apply classify_density_duration_mono].
Qed.

(** ** The shape of the result *)

(** X5.  The dictionary returned for a model output has exactly the five
    keys [total_vehicles], [vehicle_counts], [density], [density_color]
    and [green_duration], an integer under the first and the last, and a
    density, colour and duration that are one of the three rows together:
    the colour and the duration never disagree with the tier. *)
Theorem analyze_results_shape (results : list Results) :
  ∃ (result : gmap string value) (n g : Z) (vehicle_counts : gmap string Z)
    (density color : string),
    analyze_results results = Ok result ∧
    dom result = {[ "total_vehicles"; "vehicle_counts"; "density";
                    "density_color"; "green_duration" ]} ∧
    result !! "total_vehicles" = Some (VInt n) ∧
    result !! "vehicle_counts" = Some (VDict vehicle_counts) ∧
    result !! "density" = Some (VStr density) ∧
    result !! "density_color" = Some (VStr color) ∧
    result !! "green_duration" = Some (VInt g) ∧
    (density, color, g) ∈
      [("Low", "#4CAF50", 30); ("Medium", "#FF9800", 45); ("High", "#F44336", 60)].
Proof.
  rewrite analyze_results_ok. do 6 eexists.
  split; [done|].
  split; [rewrite !dom_insert_L, dom_singleton_L; set_solver|].
  do 5 (split; [by simplify_map_eq|]).
  rewrite <-!surjective_pairing.
  generalize (sum_values
                (counts (count_class 2 (detections results))
                        (count_class 3 (detections results))
                        (count_class 5 (detections results))
                        (count_class 7 (detections results)))).
  intros n. unfold classify_density.
  destruct (n <=? 5); [|destruct (n <=? 15)]; set_solver.
Qed.

(** ** File extensions *)

Lemma rsplit1_spec (c : ascii) (s : string) :
  (str_in c s = false ∧ rsplit1 c s = [s]) ∨
  (str_in c s = true ∧
   ∃ stem ext, rsplit1 c s = [stem; ext] ∧ s = stem +:+ String c ext ∧
               str_in c ext = false).
Proof.
  induction s as [|a s IH]; [by left|].
  cbn [str_in rsplit1].
  destruct IH as [[Hin ->]|[Hin (stem & ext & -> & Hs & Hext)]]; rewrite Hin.
  - case_bool_decide as Ha; [right | by left].
    split; [done|]. exists "", s. by subst a.
  - right. rewrite orb_true_r. split; [done|].
    exists (String a stem), ext. by rewrite Hs.
Qed.

(** X6.  [s.rsplit(c, 1)] cuts at the last [c]: when [c] occurs in [s]
    there are two parts, they give [s] back when joined by [c], the
    second part is free of [c] and is what the subscript [[1]] returns;
    when [c] does not occur the only part is [s] and the subscript [[1]]
    raises [IndexError]. *)
Theorem rsplit1_last_separator (c : ascii) (s : string) :
  (str_in c s = true →
     ∃ stem ext,
       rsplit1 c s = [stem; ext] ∧
       s = stem +:+ String c ext ∧
       str_in c ext = false ∧
       list_getitem (rsplit1 c s) 1 = Ok ext) ∧
  (str_in c s = false →
     rsplit1 c s = [s] ∧
     list_getitem (rsplit1 c s) 1 = Raise (IndexError "list index out of range")).
Proof.
  destruct (rsplit1_spec c s) as [[Hin Hs]|[Hin (stem & ext & Hs & Hjoin & Hext)]];
    rewrite Hin, Hs; split; try done.
  intros _. by exists stem, ext.
Qed.

(** ** The upload handler *)

Lemma os_path_join_upload (name : string) :
  os_path_join UPLOAD_FOLDER ("latest_upload." +:+ name) =
    "uploads/latest_upload." +:+ name.
Proof. reflexivity. Qed.

Section HandlerProperties.

Context {Env : Type}.
Context (model : string → Env → result (list Results) * Env).
Context (file_save : FileStorage → string → Env → result unit * Env).
Context (repr : value → string) (lower : string → string).

Local Abbreviation upload := (upload_image model file_save repr lower).

(** The three refusals, each before anything is saved or analysed. *)
Lemma upload_no_image (request : Request) (s : State Env) :
  files request !! "image" = None →
  upload request s = (Ok ({[ "error" := VStr "No image uploaded" ]}, 400), s).
Proof.
  intros Hfile. unfold upload_image, contains.
  rewrite bool_decide_eq_false_2; [done|].
  rewrite Hfile. by intros [? ?].
Qed.

Lemma upload_no_filename (request : Request) (file : FileStorage) (s : State Env) :
  files request !! "image" = Some file →
  filename file = "" →
  upload request s = (Ok ({[ "error" := VStr "No file selected" ]}, 400), s).
Proof.
  intros Hfile Hname. unfold upload_image, contains.
  rewrite bool_decide_eq_true_2 by (by rewrite Hfile).
  cbn [negb]. unfold getitem. rewrite Hfile.
  unfold mbind at 1, M_bind, lift at 1. by rewrite Hname.
Qed.

Lemma upload_invalid_type (request : Request) (file : FileStorage) (s : State Env) :
  files request !! "image" = Some file →
  filename file ≠ "" →
  (str_in "." (filename file) = false ∨
   ∃ stem ext, rsplit1 "." (filename file) = [stem; ext] ∧
               lower ext ∉ allowed_extensions) →
  upload request s =
    (Ok ({[ "error" := VStr "Invalid file type. Use JPG or PNG" ]}, 400), s).
Proof.
  intros Hfile Hname Htype. unfold upload_image, contains.
  rewrite bool_decide_eq_true_2 by (by rewrite Hfile).
  cbn [negb]. unfold getitem. rewrite Hfile.
  unfold mbind at 1, M_bind, lift at 1.
  apply String.eqb_neq in Hname. rewrite Hname.
  destruct Htype as [Hdot|(stem & ext & Hsplit & Hext)].
  - by rewrite Hdot.
  - rewrite (rsplit1_str_in _ _ _ _ Hsplit), Hsplit.
    cbn [list_getitem lookup list_lookup mbind result_bind].
    by rewrite bool_decide_eq_false_2.
Qed.

(** An accepted file: the save, then the analysis, then the response. *)
Lemma upload_accepted (request : Request) (file : FileStorage)
    (stem ext : string) (s : State Env) :
  files request !! "image" = Some file →
  filename file ≠ "" →
  rsplit1 "." (filename file) = [stem; ext] →
  lower ext ∈ allowed_extensions →
  upload request s =
    let filepath := "uploads/latest_upload." +:+ lower ext in
    let failed (e : exn) : gmap string value * Z :=
      ({[ "error" := VStr ("Processing failed: " +:+ str repr e) ]}, 500) in
    match file_save file filepath (env s) with
    | (Raise e, env1) =>
        (Ok (failed e), {| env := env1; inference_log := inference_log s |})
    | (Ok _, env1) =>
        let s2 := {| env := (model filepath env1).2;
                     inference_log := inference_log s ++ [filepath] |} in
        match (model filepath env1).1 ≫= analyze_results with
        | Raise e => (Ok (failed e), s2)
        | Ok result =>
            (Ok (<["image_url" := VStr ("/uploads/latest_upload." +:+ lower ext)]>
                   result, 200), s2)
        end
    end.
Proof.
  intros Hfile Hname Hsplit Hext. unfold upload_image, contains.
  rewrite bool_decide_eq_true_2 by (by rewrite Hfile).
  cbn [negb]. unfold getitem. rewrite Hfile.
  unfold mbind at 1, M_bind, lift at 1.
  apply String.eqb_neq in Hname. rewrite Hname.
  rewrite (rsplit1_str_in _ _ _ _ Hsplit), Hsplit.
  cbn [list_getitem lookup list_lookup mbind result_bind].
  rewrite bool_decide_eq_true_2 by done.
  unfold mbind, M_bind, lift, try_except, save. cbn [negb].
  rewrite os_path_join_upload. cbn zeta.
  destruct (file_save file _ (env s)) as [[[]|e] env1]; [|reflexivity].
  rewrite analyze_traffic_unfold. cbn [env inference_log].
  destruct (model _ env1) as [[results|e] env2];
    cbn [fst snd mbind result_bind]; [|reflexivity].
  destruct (analyze_results results); reflexivity.
Qed.

(** Every request is either refused or passes the three checks. *)
Lemma upload_cases (request : Request) (s : State Env) :
  (∃ msg, upload request s = (Ok ({[ "error" := VStr msg ]}, 400), s)) ∨
  (∃ file stem ext,
     files request !! "image" = Some file ∧
     filename file ≠ "" ∧
     rsplit1 "." (filename file) = [stem; ext] ∧
     lower ext ∈ allowed_extensions).
Proof.
  destruct (files request !! "image") as [file|] eqn:Hfile.
  2: { left. eexists. by apply upload_no_image. }
  destruct (decide (filename file = "")) as [Hname|Hname].
  { left. eexists. by eapply upload_no_filename. }
  destruct (rsplit1_cases "." (filename file))
    as [[Hdot _]|[_ (stem & ext & Hsplit)]].
  { left. eexists. eapply upload_invalid_type; eauto. }
  destruct (decide (lower ext ∈ allowed_extensions)) as [Hext|Hext].
  - right. by exists file, stem, ext.
  - left. eexists. eapply upload_invalid_type; eauto 6.
Qed.

(** X7.  A request without the field [image], with an empty file name,
    or with a file name that has no dot or whose text after the last dot
    is not png, jpg or jpeg once lowered, is answered with status 400 and
    the message of that check; nothing is saved and no inference runs. *)
Theorem upload_image_rejects (request : Request) (s : State Env) :
  (files request !! "image" = None →
     upload request s = (Ok ({[ "error" := VStr "No image uploaded" ]}, 400), s)) ∧
  (∀ file,
     files request !! "image" = Some file →
     filename file = "" →
     upload request s = (Ok ({[ "error" := VStr "No file selected" ]}, 400), s)) ∧
  (∀ file,
     files request !! "image" = Some file →
     filename file ≠ "" →
     (str_in "." (filename file) = false ∨
      ∃ stem ext, rsplit1 "." (filename file) = [stem; ext] ∧
                  lower ext ∉ allowed_extensions) →
     upload request s =
       (Ok ({[ "error" := VStr "Invalid file type. Use JPG or PNG" ]}, 400), s)).
Proof.
  split; [apply upload_no_image|].
  split; intros file; [apply upload_no_filename | apply upload_invalid_type].
Qed.

(** X8.  When saving the accepted file raises, the answer is status 500
    with the text of that exception, and the model is not called. *)
Theorem upload_image_save_error (request : Request) (file : FileStorage)
    (stem ext : string) (s : State Env) (e : exn) (env1 : Env) :
  files request !! "image" = Some file →
  filename file ≠ "" →
  rsplit1 "." (filename file) = [stem; ext] →
  lower ext ∈ allowed_extensions →
  file_save file ("uploads/latest_upload." +:+ lower ext) (env s) = (Raise e, env1) →
  upload request s =
    (Ok ({[ "error" := VStr ("Processing failed: " +:+ str repr e) ]}, 500),
     {| env := env1; inference_log := inference_log s |}).
Proof.
  intros Hfile Hname Hsplit Hext Hsave.
  rewrite (upload_accepted _ _ _ _ _ Hfile Hname Hsplit Hext).
  cbn zeta. by rewrite Hsave.
Qed.

(** X9.  When the accepted file is saved and the model returns, the
    answer is status 200 with the result of the analysis and one more
    entry, [image_url], the URL of the saved file; the five entries of
    the analysis are passed on unchanged, and inference ran once, on the
    path the file was saved to. *)
Theorem upload_image_success (request : Request) (file : FileStorage)
    (stem ext : string) (s : State Env) (results : list Results)
    (env1 env2 : Env) :
  files request !! "image" = Some file →
  filename file ≠ "" →
  rsplit1 "." (filename file) = [stem; ext] →
  lower ext ∈ allowed_extensions →
  file_save file ("uploads/latest_upload." +:+ lower ext) (env s) = (Ok (), env1) →
  model ("uploads/latest_upload." +:+ lower ext) env1 = (Ok results, env2) →
  ∃ result body : gmap string value,
    analyze_results results = Ok result ∧
    upload request s =
      (Ok (body, 200),
       {| env := env2;
          inference_log :=
            inference_log s ++ ["uploads/latest_upload." +:+ lower ext] |}) ∧
    body !! "image_url" = Some (VStr ("/uploads/latest_upload." +:+ lower ext)) ∧
    result !! "image_url" = None ∧
    (∀ k, k ≠ "image_url" → body !! k = result !! k) ∧
    dom body = {[ "total_vehicles"; "vehicle_counts"; "density";
                  "density_color"; "green_duration"; "image_url" ]}.
Proof.
  intros Hfile Hname Hsplit Hext Hsave Hmodel.
  rewrite (upload_accepted _ _ _ _ _ Hfile Hname Hsplit Hext).
  cbn zeta. rewrite Hsave, Hmodel. cbn [fst snd mbind result_bind].
  rewrite analyze_results_ok. eexists _, _.
  split; [done|]. split; [done|].
  split; [by rewrite lookup_insert_eq|].
  split; [by simplify_map_eq|].
  split; [by intros k Hk; rewrite lookup_insert_ne|].
  rewrite !dom_insert_L, dom_singleton_L. set_solver.
Qed.


(** X11.  One request runs inference at most once, and only on one of
    the paths [uploads/latest_upload.png], [uploads/latest_upload.jpg]
    and [uploads/latest_upload.jpeg], whatever the name of the uploaded
    file. *)
Theorem upload_image_inference_bound (request : Request) (s : State Env) :
  inference_log (upload request s).2 = inference_log s ∨
  ∃ ext,
    ext ∈ ["png"; "jpg"; "jpeg"] ∧
    inference_log (upload request s).2 =
      (inference_log s ++ ["uploads/latest_upload." +:+ ext])%list.
Proof.
  destruct (upload_cases request s)
    as [[msg Hrefused]|(file & stem & ext & Hfile & Hname & Hsplit & Hext)].
  { left. by rewrite Hrefused. }
  rewrite (upload_accepted _ _ _ _ _ Hfile Hname Hsplit Hext). cbn zeta.
  destruct (file_save file _ (env s)) as [[[]|e] env1]; [|by left].
  right. exists (lower ext). split.
  { unfold allowed_extensions in Hext.
    rewrite !elem_of_union, !elem_of_singleton in Hext.
    rewrite !elem_of_cons. tauto. }
  by destruct ((model _ env1).1 ≫= analyze_results).
Qed.

End HandlerProperties.

(** ** The paths the handler touches *)

(** X12.  The handler saves and analyses under the three paths
    [uploads/latest_upload.png], [.jpg] and [.jpeg] only: with
    collaborators that behave the same on these three paths, every request
    ends in the same response and the same state, whatever they would do
    on any other path. *)
Theorem upload_image_only_upload_slots {Env : Type}
    (model model' : string → Env → result (list Results) * Env)
    (file_save file_save' : FileStorage → string → Env → result unit * Env)
    (repr : value → string) (lower : string → string)
    (request : Request) (s : State Env) :
  (∀ ext file e, ext ∈ ["png"; "jpg"; "jpeg"] →
     file_save file ("uploads/latest_upload." +:+ ext) e =
     file_save' file ("uploads/latest_upload." +:+ ext) e) →
  (∀ ext e, ext ∈ ["png"; "jpg"; "jpeg"] →
     model ("uploads/latest_upload." +:+ ext) e =
     model' ("uploads/latest_upload." +:+ ext) e) →
  upload_image model file_save repr lower request s =
  upload_image model' file_save' repr lower request s.
Proof.
  intros Hsave Hmodel.
  destruct (files request !! "image") as [file|] eqn:Hfile.
  2: { by rewrite !upload_no_image. }
  destruct (decide (filename file = "")) as [Hname|Hname].
  { by rewrite !(upload_no_filename _ _ _ _ _ file). }
  destruct (rsplit1_cases "." (filename file))
    as [[Hdot _]|[_ (stem & ext & Hsplit)]].
  { rewrite !(upload_invalid_type _ _ _ _ _ file); eauto. }
  destruct (decide (lower ext ∈ allowed_extensions)) as [Hext|Hext].
  2: { rewrite !(upload_invalid_type _ _ _ _ _ file); eauto 6. }
  rewrite !(upload_accepted _ _ _ _ _ _ _ _ _ Hfile Hname Hsplit Hext).
  assert (lower ext ∈ ["png"; "jpg"; "jpeg"]) as Hslot.
  { unfold allowed_extensions in Hext.
    rewrite !elem_of_union, !elem_of_singleton in Hext.
    rewrite !elem_of_cons. tauto. }
  cbn zeta. rewrite (Hsave _ _ _ Hslot).
  destruct (file_save' file _ (env s)) as [[[]|e] env1]; [|done].
  by rewrite (Hmodel _ _ Hslot).
Qed.

(** ** Examples for the upload handler *)

Lemma upload_image_save_error_witness :
  upload_image stub_model stub_save_full stub_repr stub_lower
      {| files := {[ "image" := {| filename := "cam 3.snapshot.JPeG";
                                   stream := ["x"%byte] |} ]} |}
      {| env := ∅; inference_log := [] |} =
    (Ok ({[ "error" := VStr "Processing failed: No space left on device" ]}, 500),
     {| env := ∅; inference_log := [] |}).
Proof.
  apply (upload_image_save_error stub_model stub_save_full stub_repr stub_lower
           _ {| filename := "cam 3.snapshot.JPeG"; stream := ["x"%byte] |}
           "cam 3.snapshot" "JPeG" {| env := ∅; inference_log := [] |}
           (Exception "No space left on device") ∅);
    try reflexivity.
  discriminate.
Defined.

Lemma upload_image_success_witness :
  ∃ result body : gmap string value,
    analyze_results (detector_output [2; 2; 3; 7]) = Ok result ∧
    upload_image stub_model stub_save stub_repr stub_lower
        {| files := {[ "image" := {| filename := "cam 3.snapshot.JPeG";
                                     stream := ["x"%byte] |} ]} |}
        {| env := ∅; inference_log := [] |} =
      (Ok (body, 200),
       {| env := {[ "uploads/latest_upload.jpeg" := ["x"%byte] ]};
          inference_log := [] ++ ["uploads/latest_upload.jpeg"] |}) ∧
    body !! "image_url" = Some (VStr "/uploads/latest_upload.jpeg") ∧
    result !! "image_url" = None ∧
    (∀ k, k ≠ "image_url" → body !! k = result !! k) ∧
    dom body = {[ "total_vehicles"; "vehicle_counts"; "density";
                  "density_color"; "green_duration"; "image_url" ]}.
Proof.
  apply (upload_image_success stub_model stub_save stub_repr stub_lower
           _ {| filename := "cam 3.snapshot.JPeG"; stream := ["x"%byte] |}
           "cam 3.snapshot" "JPeG" {| env := ∅; inference_log := [] |}
           (detector_output [2; 2; 3; 7])
           {[ "uploads/latest_upload.jpeg" := ["x"%byte] ]}
           {[ "uploads/latest_upload.jpeg" := ["x"%byte] ]});
    try reflexivity.
  discriminate.
Defined.

Lemma upload_image_only_upload_slots_witness :
  upload_image stub_model stub_save stub_repr stub_lower
      {| files := {[ "image" := {| filename := "../../etc/passwd.png";
                                   stream := ["x"%byte] |} ]} |}
      {| env := ∅; inference_log := [] |} =
  upload_image stub_model_slots stub_save stub_repr stub_lower
      {| files := {[ "image" := {| filename := "../../etc/passwd.png";
                                   stream := ["x"%byte] |} ]} |}
      {| env := ∅; inference_log := [] |}.
Proof.
  apply (upload_image_only_upload_slots stub_model stub_model_slots
           stub_save stub_save); [done|].
  intros ext e Hext. unfold stub_model_slots.
  rewrite !elem_of_cons, elem_of_nil in Hext.
  destruct Hext as [->|[->|[->|[]]]]; reflexivity.
Defined.
